(** * Eligibility evaluator of [main.py]: age calculation and service window

    A shallow embedding of [Person.calculate_age] and [Person.is_eligible],
    together with the part of Python's [datetime] constructor they rely on
    (range checks on year, month and day, raising [ValueError]). Python
    integers are unbounded, so they are modelled by [Z]; Python's [%] with a
    positive divisor is [Z.modulo]. The display code ([th_date_format], the
    two [__str__] methods) and the loop of [main] follow. *)

From Stdlib Require Import ZArith Bool Lia List String Ascii.
From Stdlib Require Import DecimalString DecimalPos DecimalZ.
Import ListNotations.

Local Open Scope Z_scope.

(** ** Exceptions: a call either returns a value or raises *)

Inductive exn : Type :=
| ValueError.

Inductive result (A : Type) : Type :=
| Returns (a : A)
| Raises (e : exn).

Arguments Returns {A} a.
Arguments Raises {A} e.

Definition ret {A : Type} (a : A) : result A := Returns a.

Definition bind {A B : Type} (c : result A) (k : A -> result B) : result B :=
  match c with
  | Returns a => k a
  | Raises e => Raises e
  end.

Notation "x <- c ;; k" := (bind c (fun x => k))
  (at level 61, c at next level, right associativity).

(** ** [datetime.datetime], date fields only

    Every [datetime] of the program is built from a year, a month and a day;
    hour, minute and second are always zero and are left out. *)

Record datetime : Type := mk_datetime { year : Z; month : Z; day : Z }.

Definition MINYEAR : Z := 1.
Definition MAXYEAR : Z := 9999.

Definition is_leap (y : Z) : bool :=
  (y mod 4 =? 0) && (negb (y mod 100 =? 0) || (y mod 400 =? 0)).

Definition days_in_month (y m : Z) : Z :=
  if m =? 2 then (if is_leap y then 29 else 28)
  else if (m =? 4) || (m =? 6) || (m =? 9) || (m =? 11) then 30
  else 31.

(** The checks of the constructor [datetime(y, m, d)]. *)
Definition check_date_fields (y m d : Z) : bool :=
  (MINYEAR <=? y) && (y <=? MAXYEAR) &&
  (1 <=? m) && (m <=? 12) &&
  (1 <=? d) && (d <=? days_in_month y m).

Definition datetime_new (y m d : Z) : result datetime :=
  if check_date_fields y m d then ret (mk_datetime y m d)
  else Raises ValueError.

(** A [datetime] object that exists at run time passed these checks. *)
Definition valid_datetime (dt : datetime) : bool :=
  check_date_fields (year dt) (month dt) (day dt).

(** Chronological order of two dates, as [<=] and [<] on [datetime]. *)
Definition datetime_le (a b : datetime) : bool :=
  (year a <? year b) ||
  ((year a =? year b) &&
   ((month a <? month b) || ((month a =? month b) && (day a <=? day b)))).

Definition datetime_lt (a b : datetime) : bool :=
  (year a <? year b) ||
  ((year a =? year b) &&
   ((month a <? month b) || ((month a =? month b) && (day a <? day b)))).

(** ** Tuples of two integers, compared as Python compares tuples *)

Definition tuple_le (a b : Z * Z) : bool :=
  (fst a <? fst b) || ((fst a =? fst b) && (snd a <=? snd b)).

Definition tuple_lt (a b : Z * Z) : bool :=
  (fst a <? fst b) || ((fst a =? fst b) && (snd a <? snd b)).

(** ** Module constants *)

Definition START_DATE : datetime := mk_datetime 2564 6 1.
Definition END_DATE : datetime := mk_datetime 2564 8 31.
Definition SENIOR_LOWER_AGE : Z * Z := (65, 0).
Definition CHILD_LOWER_AGE : Z * Z := (0, 6).
Definition CHILD_UPPER_AGE : Z * Z := (2, 0).

(** ** [Gender] and [Person] *)

Inductive Gender : Type :=
| Male
| Female.

Record Person : Type := mk_Person { gender : Gender; birthdate : datetime }.

(** [Person.calculate_age]: [age_years] is assigned, then decremented under
    the test of the [if]; [age_months] is computed afterwards. *)
Definition calculate_age (self : Person) (set_date : datetime) : Z * Z :=
  let age_years := year set_date - year (birthdate self) in
  let age_years :=
    if (month set_date <? month (birthdate self)) ||
       ((month set_date =? month (birthdate self)) &&
        (day set_date <? day (birthdate self)))
    then age_years - 1
    else age_years in
  let age_months := ((month set_date - month (birthdate self)) + 12) mod 12 in
  (age_years, age_months).

(** [Person.is_eligible]: the [if]/[elif] chain of the source, in order. *)
Definition is_eligible (self : Person)
  : result (bool * option datetime * option datetime) :=
  let age_at_start := calculate_age self START_DATE in
  let age_at_end := calculate_age self END_DATE in
  let dob := birthdate self in
  if tuple_le SENIOR_LOWER_AGE age_at_start ||
     (tuple_le CHILD_LOWER_AGE age_at_start &&
      tuple_le age_at_end CHILD_UPPER_AGE)
  then ret (true, Some START_DATE, Some END_DATE)
  else if tuple_le SENIOR_LOWER_AGE age_at_end
  then d <- datetime_new (year dob + 65) (month dob) (day dob) ;;
       ret (true, Some d, Some END_DATE)
  else if tuple_le CHILD_LOWER_AGE age_at_end &&
          tuple_lt age_at_end CHILD_UPPER_AGE
  then d <- datetime_new (year dob) (month dob + 6) (day dob) ;;
       ret (true, Some d, Some END_DATE)
  else if tuple_lt CHILD_UPPER_AGE age_at_end &&
          (tuple_le CHILD_LOWER_AGE age_at_start &&
           tuple_le age_at_start CHILD_UPPER_AGE)
  then d <- datetime_new (year dob + 2) (month dob) (day dob) ;;
       ret (true, Some START_DATE, Some d)
  else ret (false, None, None).

(** ** Which [return] of [is_eligible] is reached

    The four eligible returns are named after the rules they implement;
    [branch_of] repeats the tests of the chain and constructs no date. *)

Inductive branch : Type :=
| RuleA   (* old enough and not too old *)
| RuleB   (* will be 65yo within the period *)
| RuleC   (* will be 6mo within the period *)
| RuleD   (* will be 2yo within the period *)
| Ineligible.

Definition rule_A_test (self : Person) : bool :=
  tuple_le SENIOR_LOWER_AGE (calculate_age self START_DATE) ||
  (tuple_le CHILD_LOWER_AGE (calculate_age self START_DATE) &&
   tuple_le (calculate_age self END_DATE) CHILD_UPPER_AGE).

Definition rule_B_test (self : Person) : bool :=
  tuple_le SENIOR_LOWER_AGE (calculate_age self END_DATE).

Definition rule_C_test (self : Person) : bool :=
  tuple_le CHILD_LOWER_AGE (calculate_age self END_DATE) &&
  tuple_lt (calculate_age self END_DATE) CHILD_UPPER_AGE.

Definition rule_D_test (self : Person) : bool :=
  tuple_lt CHILD_UPPER_AGE (calculate_age self END_DATE) &&
  (tuple_le CHILD_LOWER_AGE (calculate_age self START_DATE) &&
   tuple_le (calculate_age self START_DATE) CHILD_UPPER_AGE).

Definition branch_of (self : Person) : branch :=
  if rule_A_test self then RuleA
  else if rule_B_test self then RuleB
  else if rule_C_test self then RuleC
  else if rule_D_test self then RuleD
  else Ineligible.

(** ** The documented contract, stated independently of the code *)

(** The invariant of an eligibility result: no dates when ineligible; when
    eligible, a non-empty window inside the service period. *)
Definition window_in_period (s e : datetime) : bool :=
  datetime_le s e && datetime_le START_DATE s && datetime_le e END_DATE.

Definition result_invariant (r : bool * option datetime * option datetime)
  : bool :=
  match r with
  | (false, None, None) => true
  | (true, Some s, Some e) => window_in_period s e
  | _ => false
  end.

(** The age pair as the specification words it: the difference of the years,
    less one when the reference date is before the anniversary; the month
    delta normalised into 0..11. *)
Definition before_anniversary (bd ref : datetime) : bool :=
  (month ref <? month bd) || ((month ref =? month bd) && (day ref <? day bd)).

Definition age_years_spec (bd ref : datetime) : Z :=
  (year ref - year bd) - (if before_anniversary bd ref then 1 else 0).

Definition age_months_spec (ref_month bd_month : Z) : Z :=
  ((ref_month - bd_month) + 12) mod 12.

(** Calendar arithmetic on a date, keeping the day of the month: the same
    day [n] years later, and the same day [n] months later (rolling over
    into the following years when the month passes December). *)
Definition plus_years (d : datetime) (n : Z) : datetime :=
  mk_datetime (year d + n) (month d) (day d).

Definition plus_months (d : datetime) (n : Z) : datetime :=
  mk_datetime (year d + (month d - 1 + n) / 12)
              ((month d - 1 + n) mod 12 + 1)
              (day d).

(** The result each branch is documented to give: the whole period, from
    the 65th birthday, from the half-year birthday, or until the second
    birthday. *)
Definition eligibility_of (p : Person)
  : bool * option datetime * option datetime :=
  match branch_of p with
  | RuleA => (true, Some START_DATE, Some END_DATE)
  | RuleB => (true, Some (plus_years (birthdate p) 65), Some END_DATE)
  | RuleC => (true, Some (plus_months (birthdate p) 6), Some END_DATE)
  | RuleD => (true, Some START_DATE, Some (plus_years (birthdate p) 2))
  | Ineligible => (false, None, None)
  end.

(** ** Display: [TH_MONTHS], [Gender.__str__], [th_date_format],
    [Person.__str__]

    A Python [str] is modelled by the [string] of its UTF-8 bytes, which
    keeps concatenation and equality. *)

Definition TH_MONTHS : list string :=
  [ "มกราคม"; "กุมภาพันธ์"; "มีนาคม"; "เมษายน"; "พฤษภาคม"; "มิถุนายน";
    "กรกฎาคม"; "สิงหาคม"; "กันยายน"; "ตุลาคม"; "พฤศจิกายน"; "ธันวาคม" ]%string.

(** What the display code can raise: an exception passed on from
    [is_eligible], or the [IndexError] of a subscript. *)
Inductive raised : Type :=
| DateError (e : exn)
| IndexError.

(** [str(z)] of an integer, as an f-string field prints it. *)
Definition str_int (z : Z) : string := NilZero.string_of_int (Z.to_int z).

(** The subscript [t[i]] of a tuple: a negative index counts from the end,
    and an index outside the tuple raises. *)
Definition getitem {A : Type} (t : list A) (i : Z) : A + raised :=
  let i := if i <? 0 then i + Z.of_nat (List.length t) else i in
  if i <? 0 then inr IndexError
  else match nth_error t (Z.to_nat i) with
       | Some a => inl a
       | None => inr IndexError
       end.

Definition Gender__str__ (self : Gender) : string :=
  match self with
  | Male => "Male"
  | Female => "Female"
  end.

(** [Person.th_date_format]. *)
Definition th_date_format (date : datetime) : string + raised :=
  match getitem TH_MONTHS (month date - 1) with
  | inl name =>
      inl (str_int (day date) ++ " " ++ name ++ " พ.ศ."
           ++ str_int (year date))%string
  | inr e => inr e
  end.

Definition Person__str__ (self : Person) : string + raised :=
  match th_date_format (birthdate self) with
  | inl s =>
      inl ("Gender: " ++ Gender__str__ (gender self) ++ ", "
           ++ "birthdate: " ++ s)%string
  | inr e => inr e
  end.

(** ** The loop of [main]

    Each [print] call adds its argument to the output; the body of the loop
    does all of its computations before its two [print] calls. *)

Definition newline : string := String (ascii_of_nat 10) EmptyString.
Definition tab : string := String (ascii_of_nat 9) EmptyString.

(** [p.th_date_format(d) if d else None]: a [datetime] is always true. *)
Definition th_date_format_if (d : option datetime) : option string + raised :=
  match d with
  | Some d =>
      match th_date_format d with
      | inl s => inl (Some s)
      | inr e => inr e
      end
  | None => inl None
  end.

(** An f-string field holding a string or [None]. *)
Definition str_optional (o : option string) : string :=
  match o with
  | Some s => s
  | None => "None"
  end.

Definition report (eligible : string) (start end_ : option string) : string :=
  (eligible ++ "," ++ newline
   ++ "Service Start Date:" ++ tab ++ str_optional start ++ newline
   ++ "Service End Date:" ++ tab ++ str_optional end_ ++ newline
   ++ "----------")%string.

(** The body of the [for] loop, for the index [i] and the person [p]: the
    two printed strings, or the exception that ends the program. *)
Definition main_body (i : Z) (p : Person) : list string + raised :=
  match is_eligible p with
  | Raises e => inr (DateError e)
  | Returns (eligible, start, end_) =>
      let eligible := (if eligible : bool then "Yes" else "No")%string in
      match th_date_format_if start with
      | inr e => inr e
      | inl start =>
          match th_date_format_if end_ with
          | inr e => inr e
          | inl end_ =>
              match Person__str__ p with
              | inr e => inr e
              | inl sp =>
                  inl [ (str_int (i + 1) ++ ": " ++ sp)%string;
                        report eligible start end_ ]
              end
          end
      end
  end.

(** [for i, p in enumerate(persons)], from the index [i] on, with the output
    printed so far. *)
Fixpoint main_loop (i : Z) (persons : list Person) (out : list string)
  : list string * option raised :=
  match persons with
  | [] => (out, None)
  | p :: rest =>
      match main_body i p with
      | inl printed => main_loop (i + 1) rest (out ++ printed)
      | inr e => (out, Some e)
      end
  end.

(** The four persons of [main]: the dates its four literals denote. *)
Definition example_persons : list Person :=
  [ mk_Person Female (mk_datetime 2499 3 10);
    mk_Person Male (mk_datetime 2500 10 8);
    mk_Person Female (mk_datetime 2562 7 1);
    mk_Person Female (mk_datetime 2564 1 5) ].

(** Whether the character [c] occurs in [s]; used to tell the fields of a
    formatted date apart. *)
Fixpoint has_char (c : ascii) (s : string) : bool :=
  match s with
  | EmptyString => false
  | String a r => Ascii.eqb a c || has_char c r
  end.

(** * Proofs *)

(** ** Reflection of the comparisons *)

Ltac zlia := Z.to_euclidean_division_equations; lia.

Lemma tuple_le_iff (a b : Z * Z) :
  tuple_le a b = true <->
  fst a < fst b \/ (fst a = fst b /\ snd a <= snd b).
Proof.
  unfold tuple_le.
  rewrite orb_true_iff, andb_true_iff, Z.ltb_lt, Z.eqb_eq, Z.leb_le.
  tauto.
Qed.

Lemma tuple_lt_iff (a b : Z * Z) :
  tuple_lt a b = true <->
  fst a < fst b \/ (fst a = fst b /\ snd a < snd b).
Proof.
  unfold tuple_lt.
  rewrite orb_true_iff, andb_true_iff, !Z.ltb_lt, Z.eqb_eq.
  tauto.
Qed.

Lemma datetime_le_iff (a b : datetime) :
  datetime_le a b = true <->
  year a < year b \/
  (year a = year b /\
   (month a < month b \/ (month a = month b /\ day a <= day b))).
Proof.
  unfold datetime_le.
  destruct (Z.ltb_spec (year a) (year b)), (Z.eqb_spec (year a) (year b)),
    (Z.ltb_spec (month a) (month b)), (Z.eqb_spec (month a) (month b)),
    (Z.leb_spec (day a) (day b)); cbn; split; intros; try discriminate;
    try reflexivity; lia.
Qed.

Lemma before_anniversary_iff (bd ref : datetime) :
  before_anniversary bd ref = true <->
  month ref < month bd \/ (month ref = month bd /\ day ref < day bd).
Proof.
  unfold before_anniversary.
  rewrite orb_true_iff, andb_true_iff, !Z.ltb_lt, Z.eqb_eq.
  tauto.
Qed.

(** ** The calendar checks *)

Lemma days_in_month_bounds (y m : Z) : 28 <= days_in_month y m <= 31.
Proof.
  unfold days_in_month.
  destruct (m =? 2); [destruct (is_leap y); lia|].
  destruct ((m =? 4) || (m =? 6) || (m =? 9) || (m =? 11)); lia.
Qed.

Lemma days_in_month_not_feb (y y' m : Z) :
  m <> 2 -> days_in_month y m = days_in_month y' m.
Proof.
  intros Hm. unfold days_in_month.
  destruct (Z.eqb_spec m 2); [contradiction | reflexivity].
Qed.

Lemma check_date_fields_iff (y m d : Z) :
  check_date_fields y m d = true <->
  1 <= y <= 9999 /\ 1 <= m <= 12 /\ 1 <= d <= days_in_month y m.
Proof.
  unfold check_date_fields, MINYEAR, MAXYEAR.
  rewrite !andb_true_iff, !Z.leb_le. tauto.
Qed.

Lemma datetime_new_returns (y m d : Z) :
  check_date_fields y m d = true ->
  datetime_new y m d = Returns (mk_datetime y m d).
Proof.
  intros H. unfold datetime_new. rewrite H. reflexivity.
Qed.

Lemma datetime_new_inv (y m d : Z) (dt : datetime) :
  datetime_new y m d = Returns dt ->
  dt = mk_datetime y m d /\ valid_datetime dt = true.
Proof.
  unfold datetime_new, valid_datetime.
  destruct (check_date_fields y m d) eqn:E; cbn; [|discriminate].
  intros [= <-]. cbn. auto.
Qed.

(** The two module constants are themselves built by the constructor. *)
Lemma period_constants_constructed :
  datetime_new 2564 6 1 = Returns START_DATE /\
  datetime_new 2564 8 31 = Returns END_DATE /\
  datetime_le START_DATE END_DATE = true.
Proof. repeat split; reflexivity. Qed.

(** ** The age pair, as facts on its two components *)

Lemma calculate_age_fst (p : Person) (ref : datetime) :
  fst (calculate_age p ref) = age_years_spec (birthdate p) ref.
Proof.
  unfold calculate_age, age_years_spec, before_anniversary. cbn [fst].
  destruct ((month ref <? month (birthdate p)) ||
            ((month ref =? month (birthdate p)) &&
             (day ref <? day (birthdate p)))); lia.
Qed.

Lemma calculate_age_snd (p : Person) (ref : datetime) :
  snd (calculate_age p ref) =
  age_months_spec (month ref) (month (birthdate p)).
Proof. reflexivity. Qed.

Lemma age_years_spec_cases (bd ref : datetime) :
  ((month ref < month bd \/ (month ref = month bd /\ day ref < day bd)) /\
   age_years_spec bd ref = year ref - year bd - 1) \/
  (~ (month ref < month bd \/ (month ref = month bd /\ day ref < day bd)) /\
   age_years_spec bd ref = year ref - year bd).
Proof.
  unfold age_years_spec.
  destruct (before_anniversary bd ref) eqn:E.
  - left. apply before_anniversary_iff in E. split; [exact E | lia].
  - right. split; [|lia].
    intros H. apply before_anniversary_iff in H. congruence.
Qed.

(** The ages at the two ends of the service period, for a birthdate whose
    month is a calendar month. *)
Lemma ages_in_period (p : Person) :
  1 <= month (birthdate p) <= 12 ->
  exists ys ms ye me,
    calculate_age p START_DATE = (ys, ms) /\
    calculate_age p END_DATE = (ye, me) /\
    ((6 < month (birthdate p) \/
      (month (birthdate p) = 6 /\ 1 < day (birthdate p))) /\
     ys = 2563 - year (birthdate p) \/
     ~ (6 < month (birthdate p) \/
        (month (birthdate p) = 6 /\ 1 < day (birthdate p))) /\
     ys = 2564 - year (birthdate p)) /\
    (month (birthdate p) <= 6 /\ ms = 6 - month (birthdate p) \/
     6 < month (birthdate p) /\ ms = 18 - month (birthdate p)) /\
    ((8 < month (birthdate p) \/
      (month (birthdate p) = 8 /\ 31 < day (birthdate p))) /\
     ye = 2563 - year (birthdate p) \/
     ~ (8 < month (birthdate p) \/
        (month (birthdate p) = 8 /\ 31 < day (birthdate p))) /\
     ye = 2564 - year (birthdate p)) /\
    (month (birthdate p) <= 8 /\ me = 8 - month (birthdate p) \/
     8 < month (birthdate p) /\ me = 20 - month (birthdate p)).
Proof.
  intros Hm.
  exists (fst (calculate_age p START_DATE)), (snd (calculate_age p START_DATE)),
         (fst (calculate_age p END_DATE)), (snd (calculate_age p END_DATE)).
  split; [apply surjective_pairing|].
  split; [apply surjective_pairing|].
  rewrite !calculate_age_fst, !calculate_age_snd.
  pose proof (age_years_spec_cases (birthdate p) START_DATE) as Hs.
  pose proof (age_years_spec_cases (birthdate p) END_DATE) as He.
  unfold age_months_spec.
  change (year START_DATE) with 2564 in *. change (month START_DATE) with 6 in *.
  change (day START_DATE) with 1 in *.
  change (year END_DATE) with 2564 in *. change (month END_DATE) with 8 in *.
  change (day END_DATE) with 31 in *.
  repeat split; zlia.
Qed.

(** ** The chain of tests and the return it selects *)

Lemma is_eligible_by_branch (p : Person) :
  is_eligible p =
  match branch_of p with
  | RuleA => ret (true, Some START_DATE, Some END_DATE)
  | RuleB =>
      d <- datetime_new (year (birthdate p) + 65) (month (birthdate p))
                        (day (birthdate p)) ;;
      ret (true, Some d, Some END_DATE)
  | RuleC =>
      d <- datetime_new (year (birthdate p)) (month (birthdate p) + 6)
                        (day (birthdate p)) ;;
      ret (true, Some d, Some END_DATE)
  | RuleD =>
      d <- datetime_new (year (birthdate p) + 2) (month (birthdate p))
                        (day (birthdate p)) ;;
      ret (true, Some START_DATE, Some d)
  | Ineligible => ret (false, None, None)
  end.
Proof.
  unfold is_eligible, branch_of, rule_A_test, rule_B_test, rule_C_test,
    rule_D_test.
  cbv zeta.
  repeat match goal with
         | |- context [if ?c then _ else _] => destruct c
         end; reflexivity.
Qed.

Lemma branch_of_RuleA (p : Person) :
  branch_of p = RuleA -> rule_A_test p = true.
Proof.
  unfold branch_of.
  destruct (rule_A_test p), (rule_B_test p), (rule_C_test p),
    (rule_D_test p); intros H; try reflexivity; discriminate H.
Qed.

Lemma branch_of_Ineligible (p : Person) :
  branch_of p = Ineligible ->
  rule_A_test p = false /\ rule_B_test p = false /\
  rule_C_test p = false /\ rule_D_test p = false.
Proof.
  unfold branch_of.
  destruct (rule_A_test p), (rule_B_test p), (rule_C_test p),
    (rule_D_test p); intros H; try discriminate H; auto.
Qed.

Ltac reflect_tests :=
  unfold rule_A_test, rule_B_test, rule_C_test, rule_D_test in *;
  repeat match goal with
         | H : calculate_age _ _ = (_, _) |- _ => rewrite H in *; clear H
         end;
  repeat match goal with
         | H : _ = false |- _ => apply not_true_iff_false in H
         end;
  repeat rewrite ?orb_true_iff, ?andb_true_iff, ?tuple_le_iff, ?tuple_lt_iff
    in *;
  unfold SENIOR_LOWER_AGE, CHILD_LOWER_AGE, CHILD_UPPER_AGE in *;
  cbn [fst snd] in *.

(** The birthdates that reach each of the three returns that build a date. *)
Lemma branch_of_birthdate (p : Person) :
  1 <= month (birthdate p) <= 12 ->
  1 <= day (birthdate p) <= 31 ->
  match branch_of p with
  | RuleB =>
      year (birthdate p) = 2499 /\ 6 <= month (birthdate p) <= 8
  | RuleC =>
      (year (birthdate p) = 2564 /\ month (birthdate p) <= 2) \/
      (year (birthdate p) = 2563 /\ month (birthdate p) = 6 /\
       2 <= day (birthdate p))
  | RuleD =>
      (year (birthdate p) = 2562 /\ 6 <= month (birthdate p) <= 7) \/
      (year (birthdate p) = 2561 /\ month (birthdate p) = 6 /\
       2 <= day (birthdate p))
  | RuleA | Ineligible => True
  end.
Proof.
  intros Hm Hd.
  destruct (ages_in_period p Hm)
    as (ys & ms & ye & me & Hs & He & Hys & Hms & Hye & Hme).
  unfold branch_of.
  destruct (rule_A_test p) eqn:TA; [exact I|].
  destruct (rule_B_test p) eqn:TB; [reflect_tests; lia|].
  destruct (rule_C_test p) eqn:TC; [reflect_tests; lia|].
  destruct (rule_D_test p) eqn:TD; [reflect_tests; lia|exact I].
Qed.

(** ** The dates built by the three returns that call [datetime] *)

Lemma valid_datetime_fields (d : datetime) :
  valid_datetime d = true ->
  1 <= year d <= 9999 /\ 1 <= month d <= 12 /\
  1 <= day d <= days_in_month (year d) (month d).
Proof. unfold valid_datetime. apply check_date_fields_iff. Qed.

Lemma days_in_month_long (y m : Z) :
  m = 7 \/ m = 8 \/ m = 12 -> days_in_month y m = 31.
Proof. intros [-> | [-> | ->]]; reflexivity. Qed.

(** What [is_eligible] constructs in each branch, on a birthdate that is a
    calendar date, passes the checks of the constructor. *)
Lemma constructed_dates_pass (p : Person) :
  valid_datetime (birthdate p) = true ->
  match branch_of p with
  | RuleB =>
      check_date_fields (year (birthdate p) + 65) (month (birthdate p))
                        (day (birthdate p)) = true
  | RuleC =>
      check_date_fields (year (birthdate p)) (month (birthdate p) + 6)
                        (day (birthdate p)) = true
  | RuleD =>
      check_date_fields (year (birthdate p) + 2) (month (birthdate p))
                        (day (birthdate p)) = true
  | RuleA | Ineligible => True
  end.
Proof.
  intros Hv.
  destruct (valid_datetime_fields _ Hv) as (Hy & Hm & Hd).
  pose proof (days_in_month_bounds (year (birthdate p)) (month (birthdate p)))
    as Hb.
  assert (Hd31 : 1 <= day (birthdate p) <= 31) by lia.
  pose proof (branch_of_birthdate p Hm Hd31) as Hc.
  destruct (branch_of p); try exact I; apply check_date_fields_iff.
  - rewrite (days_in_month_not_feb _ (year (birthdate p))) by lia. lia.
  - destruct Hc as [[Hy' Hm'] | (Hy' & Hm' & Hd')].
    + rewrite days_in_month_long by lia. lia.
    + rewrite days_in_month_long by lia. lia.
  - rewrite (days_in_month_not_feb _ (year (birthdate p))) by lia. lia.
Qed.

(** In the branch of the half-year birthday the month never passes December,
    so the date built there is the birthdate six calendar months later. *)
Lemma rule_C_plus_months (p : Person) :
  valid_datetime (birthdate p) = true ->
  branch_of p = RuleC ->
  mk_datetime (year (birthdate p)) (month (birthdate p) + 6)
              (day (birthdate p))
  = plus_months (birthdate p) 6.
Proof.
  intros Hv HC.
  destruct (valid_datetime_fields _ Hv) as (Hy & Hm & Hd).
  pose proof (days_in_month_bounds (year (birthdate p)) (month (birthdate p)))
    as Hb.
  assert (Hd31 : 1 <= day (birthdate p) <= 31) by lia.
  pose proof (branch_of_birthdate p Hm Hd31) as Hc. rewrite HC in Hc.
  unfold plus_months. f_equal; zlia.
Qed.

(** The value returned by [is_eligible] on a birthdate that is a calendar
    date. *)
Lemma is_eligible_returns (p : Person) :
  valid_datetime (birthdate p) = true ->
  is_eligible p = Returns (eligibility_of p).
Proof.
  intros Hv.
  pose proof (constructed_dates_pass p Hv) as Hc.
  pose proof (rule_C_plus_months p Hv) as Hpm.
  rewrite is_eligible_by_branch. unfold eligibility_of.
  destruct (branch_of p); try reflexivity.
  - rewrite (datetime_new_returns _ _ _ Hc). reflexivity.
  - rewrite (datetime_new_returns _ _ _ Hc). cbn.
    now rewrite Hpm.
  - rewrite (datetime_new_returns _ _ _ Hc). reflexivity.
Qed.

(** ** [calculate_age] *)

(** C3: for every birthdate and reference date, [calculate_age] returns the
    pair whose years are the difference of the two years, less one exactly
    when the reference date is before the birthday of that year (reference
    month smaller, or same month and reference day smaller), and whose
    months are [((refMonth - bdMonth) + 12) mod 12]; the months do not
    depend on the years, on the days, or on the adjustment. *)
Theorem C3_calculate_age_formula :
  forall (p : Person) (ref : datetime),
    calculate_age p ref =
      (age_years_spec (birthdate p) ref,
       age_months_spec (month ref) (month (birthdate p))) /\
    ((month ref < month (birthdate p) \/
      (month ref = month (birthdate p) /\ day ref < day (birthdate p))) /\
     fst (calculate_age p ref) = year ref - year (birthdate p) - 1
     \/
     ~ (month ref < month (birthdate p) \/
        (month ref = month (birthdate p) /\ day ref < day (birthdate p))) /\
     fst (calculate_age p ref) = year ref - year (birthdate p)) /\
    (forall (g g' : Gender) (by_ by' bd bd' ry ry' rd rd' : Z),
        snd (calculate_age
               (mk_Person g (mk_datetime by_ (month (birthdate p)) bd))
               (mk_datetime ry (month ref) rd)) =
        snd (calculate_age
               (mk_Person g' (mk_datetime by' (month (birthdate p)) bd'))
               (mk_datetime ry' (month ref) rd'))).
Proof.
  intros p ref. split; [|split].
  - rewrite (surjective_pairing (calculate_age p ref)).
    now rewrite calculate_age_fst, calculate_age_snd.
  - rewrite calculate_age_fst. apply age_years_spec_cases.
  - intros. reflexivity.
Qed.

(** C5, as amended: the months of the age pair are always within 0..11; the
    years are non-negative exactly when the birthdate is not later than the
    reference date. *)
Theorem C5_age_range :
  forall (p : Person) (ref : datetime),
    0 <= snd (calculate_age p ref) <= 11 /\
    (0 <= fst (calculate_age p ref) <->
     datetime_le (birthdate p) ref = true).
Proof.
  intros p ref. split.
  - rewrite calculate_age_snd. unfold age_months_spec. zlia.
  - rewrite calculate_age_fst, datetime_le_iff.
    destruct (age_years_spec_cases (birthdate p) ref) as [[H ->] | [H ->]];
      lia.
Qed.

(** C5, as stated, fails: a person born on 2564-07-01 has the age pair
    (-1, 11) on 2564-06-01. *)
Lemma C5_negative_years :
  ~ (0 <= fst (calculate_age (mk_Person Male (mk_datetime 2564 7 1))
                             (mk_datetime 2564 6 1)) /\
     0 <= snd (calculate_age (mk_Person Male (mk_datetime 2564 7 1))
                             (mk_datetime 2564 6 1)) <= 11).
Proof. cbn. lia. Qed.

(** C10: the age of a person on the very day of birth is (0, 0). *)
Theorem C10_age_on_birthdate :
  forall (g : Gender) (d : datetime),
    calculate_age (mk_Person g d) d = (0, 0).
Proof.
  intros g d. unfold calculate_age. cbn [birthdate].
  rewrite !Z.ltb_irrefl, andb_false_r. cbn [orb].
  f_equal; [lia|].
  replace (month d - month d + 12) with 12 by lia. reflexivity.
Qed.

(** ** [is_eligible] *)

(** C9: the gender plays no part in the result of [is_eligible]. *)
Theorem C9_gender_irrelevant :
  forall (g1 g2 : Gender) (d : datetime),
    is_eligible (mk_Person g1 d) = is_eligible (mk_Person g2 d).
Proof. intros g1 g2 d. reflexivity. Qed.

(** C8: a person aged at least (65, 0) at the start of the period, the
    bound included, is eligible for the whole period; the first test of the
    chain decides. *)
Theorem C8_senior_full_period :
  forall p : Person,
    tuple_le SENIOR_LOWER_AGE (calculate_age p START_DATE) = true ->
    branch_of p = RuleA /\
    is_eligible p = Returns (true, Some START_DATE, Some END_DATE).
Proof.
  intros p H.
  assert (HA : branch_of p = RuleA).
  { unfold branch_of, rule_A_test. now rewrite H. }
  split; [exact HA|].
  rewrite is_eligible_by_branch, HA. reflexivity.
Qed.

(** The boundary of C8: born on 2499-06-01, a person turns exactly 65 on
    the first day of the period and gets the whole period. *)
Lemma C8_turning_65_on_start :
  plus_years (mk_datetime 2499 6 1) 65 = START_DATE /\
  calculate_age (mk_Person Female (mk_datetime 2499 6 1)) START_DATE
    = (65, 0) /\
  branch_of (mk_Person Female (mk_datetime 2499 6 1)) = RuleA /\
  is_eligible (mk_Person Female (mk_datetime 2499 6 1))
    = Returns (true, Some START_DATE, Some END_DATE).
Proof.
  split; [reflexivity|]. split; [reflexivity|].
  apply (C8_senior_full_period (mk_Person Female (mk_datetime 2499 6 1))).
  reflexivity.
Defined.

(** C2, as amended: a person aged exactly (2, 0) at the end of the period
    and within the child bracket at its start is decided by the first test
    (whole period), because that test accepts an age at the end up to and
    including (2, 0), and the test for ageing out asks for more than (2, 0). *)
Theorem C2_two_years_at_end_is_rule_A :
  forall p : Person,
    calculate_age p END_DATE = CHILD_UPPER_AGE ->
    tuple_le CHILD_LOWER_AGE (calculate_age p START_DATE) = true ->
    tuple_le (calculate_age p START_DATE) CHILD_UPPER_AGE = true ->
    branch_of p = RuleA /\
    rule_D_test p = false /\
    is_eligible p = Returns (true, Some START_DATE, Some END_DATE).
Proof.
  intros p He Hlo Hhi.
  assert (HA : branch_of p = RuleA).
  { unfold branch_of, rule_A_test. rewrite Hlo, He. cbn.
    now rewrite orb_true_r. }
  split; [exact HA|]. split.
  - unfold rule_D_test. rewrite He. reflexivity.
  - rewrite is_eligible_by_branch, HA. reflexivity.
Qed.

Lemma C2_two_years_at_end_example :
  branch_of (mk_Person Male (mk_datetime 2562 8 15)) = RuleA /\
  rule_D_test (mk_Person Male (mk_datetime 2562 8 15)) = false /\
  is_eligible (mk_Person Male (mk_datetime 2562 8 15))
    = Returns (true, Some START_DATE, Some END_DATE).
Proof.
  apply (C2_two_years_at_end_is_rule_A (mk_Person Male (mk_datetime 2562 8 15)));
    reflexivity.
Defined.

(** C2, as stated, fails: born on 2562-08-15, a person is aged (2, 0) at the
    end of the period and (1, 10) at its start, yet the result is the whole
    period and not the window ending on the second birthday. *)
Lemma C2_not_rule_D :
  ~ (calculate_age (mk_Person Male (mk_datetime 2562 8 15)) END_DATE
       = CHILD_UPPER_AGE ->
     tuple_le CHILD_LOWER_AGE
       (calculate_age (mk_Person Male (mk_datetime 2562 8 15)) START_DATE)
       = true ->
     tuple_le
       (calculate_age (mk_Person Male (mk_datetime 2562 8 15)) START_DATE)
       CHILD_UPPER_AGE = true ->
     branch_of (mk_Person Male (mk_datetime 2562 8 15)) = RuleD /\
     is_eligible (mk_Person Male (mk_datetime 2562 8 15))
       = Returns (true, Some START_DATE,
                  Some (plus_years (mk_datetime 2562 8 15) 2))).
Proof.
  intros H.
  destruct H as [H _]; [reflexivity | reflexivity | reflexivity |].
  discriminate H.
Qed.

(** C4: on a birthdate that is a calendar date, [is_eligible] returns and
    does not raise; whichever branch is reached, the date it constructs
    (65 years later, 6 months later, 2 years later) passes the checks of the
    [datetime] constructor. *)
Theorem C4_is_eligible_never_raises :
  forall p : Person,
    valid_datetime (birthdate p) = true ->
    (exists r, is_eligible p = Returns r) /\
    (branch_of p = RuleB ->
     datetime_new (year (birthdate p) + 65) (month (birthdate p))
                  (day (birthdate p))
     = Returns (plus_years (birthdate p) 65)) /\
    (branch_of p = RuleC ->
     datetime_new (year (birthdate p)) (month (birthdate p) + 6)
                  (day (birthdate p))
     = Returns (plus_months (birthdate p) 6)) /\
    (branch_of p = RuleD ->
     datetime_new (year (birthdate p) + 2) (month (birthdate p))
                  (day (birthdate p))
     = Returns (plus_years (birthdate p) 2)).
Proof.
  intros p Hv.
  pose proof (constructed_dates_pass p Hv) as Hc.
  pose proof (rule_C_plus_months p Hv) as Hpm.
  split; [|repeat split; intros Hb; rewrite Hb in Hc].
  - exists (eligibility_of p). now apply is_eligible_returns.
  - now rewrite (datetime_new_returns _ _ _ Hc).
  - rewrite (datetime_new_returns _ _ _ Hc). now rewrite (Hpm Hb).
  - now rewrite (datetime_new_returns _ _ _ Hc).
Qed.

Lemma C4_is_eligible_never_raises_example :
  valid_datetime (mk_datetime 2562 7 1) = true /\
  branch_of (mk_Person Female (mk_datetime 2562 7 1)) = RuleD /\
  exists r, is_eligible (mk_Person Female (mk_datetime 2562 7 1)) = Returns r.
Proof.
  split; [reflexivity|]. split; [reflexivity|].
  apply (C4_is_eligible_never_raises
           (mk_Person Female (mk_datetime 2562 7 1))).
  reflexivity.
Defined.

(** C6: a person younger than (65, 0) at the start of the period and at
    least (65, 0) at its end, who fails the first test, is eligible from
    the 65th birthday (same month and day, 65 years after the birthdate)
    to the end of the period. *)
Theorem C6_turning_65_within_period :
  forall p : Person,
    valid_datetime (birthdate p) = true ->
    tuple_lt (calculate_age p START_DATE) SENIOR_LOWER_AGE = true ->
    tuple_le SENIOR_LOWER_AGE (calculate_age p END_DATE) = true ->
    rule_A_test p = false ->
    is_eligible p =
      Returns (true,
               Some (mk_datetime (year (birthdate p) + 65)
                                 (month (birthdate p)) (day (birthdate p))),
               Some END_DATE).
Proof.
  intros p Hv _ HB HA.
  rewrite (is_eligible_returns p Hv). unfold eligibility_of, branch_of.
  unfold rule_B_test. rewrite HA, HB. reflexivity.
Qed.

Lemma C6_turning_65_within_period_example :
  is_eligible (mk_Person Female (mk_datetime 2499 7 15)) =
    Returns (true, Some (mk_datetime 2564 7 15), Some END_DATE).
Proof.
  apply (C6_turning_65_within_period
           (mk_Person Female (mk_datetime 2499 7 15))); reflexivity.
Defined.

(** C7: a person who fails the first two tests and whose age at the end of
    the period is at least (0, 6) and below (2, 0) is eligible from the
    half-year birthday (the birthdate six months later) to the end of the
    period; so is, in particular, a person aged (0, 7) at the end of the
    period and (0, 5) at its start. *)
Theorem C7_half_year_within_period :
  forall p : Person,
    valid_datetime (birthdate p) = true ->
    (rule_A_test p = false /\ rule_B_test p = false /\
     tuple_le CHILD_LOWER_AGE (calculate_age p END_DATE) = true /\
     tuple_lt (calculate_age p END_DATE) CHILD_UPPER_AGE = true)
    \/
    (calculate_age p END_DATE = (0, 7) /\
     calculate_age p START_DATE = (0, 5)) ->
    branch_of p = RuleC /\
    is_eligible p =
      Returns (true, Some (plus_months (birthdate p) 6), Some END_DATE).
Proof.
  intros p Hv H.
  assert (HC : branch_of p = RuleC).
  { unfold branch_of, rule_A_test, rule_B_test, rule_C_test in *.
    destruct H as [(HA & HB & Hlo & Hhi) | [He Hs]].
    - now rewrite HA, HB, Hlo, Hhi.
    - rewrite He, Hs. reflexivity. }
  split; [exact HC|].
  rewrite (is_eligible_returns p Hv). unfold eligibility_of.
  now rewrite HC.
Qed.

Lemma C7_half_year_within_period_example :
  branch_of (mk_Person Female (mk_datetime 2564 1 5)) = RuleC /\
  is_eligible (mk_Person Female (mk_datetime 2564 1 5)) =
    Returns (true, Some (mk_datetime 2564 7 5), Some END_DATE).
Proof.
  apply (C7_half_year_within_period
           (mk_Person Female (mk_datetime 2564 1 5))).
  - reflexivity.
  - right. split; reflexivity.
Defined.

(** ** The invariant of the result *)

(** C1 fails on the code: born on 2561-06-15, a person is aged (2, 0) at the
    start of the period by the month-of-year delta, reaches the branch of
    the second birthday, and gets a window that ends on 2563-06-15, before
    it starts and before the period; born on 2563-06-15, a person reaches
    the branch of the half-year birthday and gets a window that starts on
    2563-12-15, before the period. *)
Theorem C1_window_outside_period :
  valid_datetime (mk_datetime 2561 6 15) = true /\
  calculate_age (mk_Person Male (mk_datetime 2561 6 15)) START_DATE = (2, 0) /\
  is_eligible (mk_Person Male (mk_datetime 2561 6 15)) =
    Returns (true, Some START_DATE, Some (mk_datetime 2563 6 15)) /\
  result_invariant (true, Some START_DATE, Some (mk_datetime 2563 6 15))
    = false /\
  datetime_lt (mk_datetime 2563 6 15) START_DATE = true /\
  valid_datetime (mk_datetime 2563 6 15) = true /\
  calculate_age (mk_Person Male (mk_datetime 2563 6 15)) START_DATE = (0, 0) /\
  is_eligible (mk_Person Male (mk_datetime 2563 6 15)) =
    Returns (true, Some (mk_datetime 2563 12 15), Some END_DATE) /\
  result_invariant (true, Some (mk_datetime 2563 12 15), Some END_DATE)
    = false /\
  datetime_lt (mk_datetime 2563 12 15) START_DATE = true.
Proof. repeat split; reflexivity. Qed.

Lemma window_in_period_iff (s e : datetime) :
  window_in_period s e = true <->
  (year s < year e \/
   (year s = year e /\
    (month s < month e \/ (month s = month e /\ day s <= day e)))) /\
  (2564 < year s \/
   (2564 = year s /\ (6 < month s \/ (6 = month s /\ 1 <= day s)))) /\
  (year e < 2564 \/
   (year e = 2564 /\ (month e < 8 \/ (month e = 8 /\ day e <= 31)))).
Proof.
  unfold window_in_period.
  rewrite !andb_true_iff, !datetime_le_iff.
  cbn [year month day START_DATE END_DATE]. tauto.
Qed.

(** The extent of the failure: on a birthdate that is a calendar date the
    returned triple breaks the invariant exactly for the birthdates from
    the 2nd to the 30th of June of 2561 and of 2563. *)
Lemma result_invariant_fails_iff (p : Person) :
  valid_datetime (birthdate p) = true ->
  result_invariant (eligibility_of p) = false <->
  month (birthdate p) = 6 /\ 2 <= day (birthdate p) /\
  (year (birthdate p) = 2561 \/ year (birthdate p) = 2563).
Proof.
  intros Hv.
  destruct (valid_datetime_fields _ Hv) as (Hy & Hm & Hd).
  pose proof (days_in_month_bounds (year (birthdate p)) (month (birthdate p)))
    as Hb.
  assert (Hd31 : 1 <= day (birthdate p) <= 31) by lia.
  pose proof (branch_of_birthdate p Hm Hd31) as Hc.
  pose proof (rule_C_plus_months p Hv) as Hpm.
  destruct (ages_in_period p Hm)
    as (ys & ms & ye & me & Hs & He & Hys & Hms & Hye & Hme).
  unfold eligibility_of.
  destruct (branch_of p) eqn:B; cbn [result_invariant];
    try rewrite <- (Hpm eq_refl);
    rewrite <- not_true_iff_false; try rewrite window_in_period_iff;
    unfold plus_years; cbn [year month day START_DATE END_DATE].
  - split; [intros H; exfalso; apply H; lia|]. intros (Hm6 & Hd2 & Hy').
    pose proof (branch_of_RuleA p B) as TA.
    reflect_tests. lia.
  - lia.
  - lia.
  - lia.
  - split; [intros H; now elim H|]. intros (Hm6 & Hd2 & Hy').
    destruct (branch_of_Ineligible p B) as (TA & TB & TC & TD).
    reflect_tests. lia.
Qed.

(** * The display code *)

(** ** Strings *)

Lemma append_split (c : ascii) (a1 a2 r1 r2 : string) :
  has_char c a1 = false -> has_char c a2 = false ->
  (a1 ++ String c r1 = a2 ++ String c r2)%string ->
  a1 = a2 /\ r1 = r2.
Proof.
  revert a2. induction a1 as [|x a1 IH]; intros [|y a2]; cbn; intros H1 H2 E.
  - now injection E.
  - injection E as Ec _. subst y. rewrite Ascii.eqb_refl in H2. discriminate.
  - injection E as Ec _. subst x. rewrite Ascii.eqb_refl in H1. discriminate.
  - injection E as Exy E'. subst y.
    apply orb_false_iff in H1 as [_ H1]. apply orb_false_iff in H2 as [_ H2].
    destruct (IH a2 H1 H2 E') as [-> ->]. auto.
Qed.

Lemma append_same_prefix (a r1 r2 : string) :
  (a ++ r1 = a ++ r2)%string -> r1 = r2.
Proof.
  induction a as [|x a IH]; cbn; intros E; [exact E|].
  injection E as E. auto.
Qed.

Lemma has_char_append (c : ascii) (a b : string) :
  has_char c (a ++ b) = has_char c a || has_char c b.
Proof.
  induction a as [|x a IH]; cbn; [reflexivity|].
  now rewrite IH, orb_assoc.
Qed.

(** ** [str] of an integer *)

Lemma string_of_uint_no_space (d : Decimal.uint) :
  has_char " " (NilEmpty.string_of_uint d) = false.
Proof. induction d; cbn; auto. Qed.

Lemma str_int_no_space (z : Z) : has_char " " (str_int z) = false.
Proof.
  unfold str_int.
  destruct (Z.to_int z) as [d | d]; cbn; destruct d; cbn;
    auto using string_of_uint_no_space.
Qed.

Lemma to_int_not_nil (z : Z) :
  Z.to_int z <> Decimal.Pos Decimal.Nil /\
  Z.to_int z <> Decimal.Neg Decimal.Nil.
Proof.
  destruct z as [|q|q]; cbn; split; try discriminate;
    intros [= E]; now apply (Unsigned.to_uint_nonnil q).
Qed.

Lemma str_int_inj (z1 z2 : Z) : str_int z1 = str_int z2 -> z1 = z2.
Proof.
  unfold str_int. intros E.
  apply DecimalZ.to_int_inj.
  destruct (to_int_not_nil z1) as [P1 N1], (to_int_not_nil z2) as [P2 N2].
  pose proof (NilZero.isi _ P1 N1) as I1.
  pose proof (NilZero.isi _ P2 N2) as I2.
  rewrite E in I1. congruence.
Qed.

(** ** The table of month names and its subscript *)

Lemma getitem_in_range {A : Type} (t : list A) (i : Z) (d : A) :
  0 <= i < Z.of_nat (List.length t) ->
  getitem t i = inl (nth (Z.to_nat i) t d).
Proof.
  intros Hi. unfold getitem.
  destruct (Z.ltb_spec i 0); [lia|].
  destruct (Z.ltb_spec i 0); [lia|].
  destruct (nth_error t (Z.to_nat i)) eqn:E.
  - now rewrite (nth_error_nth _ _ d E).
  - apply nth_error_None in E. lia.
Qed.

Lemma TH_MONTHS_length : List.length TH_MONTHS = 12%nat.
Proof. reflexivity. Qed.

Lemma TH_MONTHS_no_space :
  Forall (fun name => has_char " " name = false) TH_MONTHS.
Proof. repeat constructor. Qed.

Lemma TH_MONTHS_NoDup : NoDup TH_MONTHS.
Proof.
  unfold TH_MONTHS.
  repeat (constructor; [cbn; intuition discriminate|]). constructor.
Qed.

Lemma month_name (d : datetime) :
  valid_datetime d = true ->
  getitem TH_MONTHS (month d - 1) =
  inl (nth (Z.to_nat (month d - 1)) TH_MONTHS EmptyString) /\
  (Z.to_nat (month d - 1) < 12)%nat.
Proof.
  intros Hv. destruct (valid_datetime_fields _ Hv) as (_ & Hm & _).
  split; [|lia].
  apply getitem_in_range. rewrite TH_MONTHS_length. lia.
Qed.

(** ** [th_date_format] and [Person.__str__] *)

Lemma format_fields_inj (d1 n1 y1 d2 n2 y2 : string) :
  has_char " " d1 = false -> has_char " " d2 = false ->
  has_char " " n1 = false -> has_char " " n2 = false ->
  (d1 ++ " " ++ n1 ++ " พ.ศ." ++ y1 = d2 ++ " " ++ n2 ++ " พ.ศ." ++ y2)%string ->
  d1 = d2 /\ n1 = n2 /\ y1 = y2.
Proof.
  intros Hd1 Hd2 Hn1 Hn2 E.
  destruct (append_split " " d1 d2 (n1 ++ " พ.ศ." ++ y1) (n2 ++ " พ.ศ." ++ y2)
              Hd1 Hd2 E) as [Ed E'].
  destruct (append_split " " n1 n2 ("พ.ศ." ++ y1) ("พ.ศ." ++ y2) Hn1 Hn2 E')
    as [En E''].
  apply append_same_prefix in E''. auto.
Qed.

Lemma month_name_no_space (i : nat) :
  has_char " " (nth i TH_MONTHS EmptyString) = false.
Proof.
  destruct (Nat.lt_ge_cases i (List.length TH_MONTHS)) as [H | H].
  - pose proof TH_MONTHS_no_space as F. rewrite Forall_forall in F.
    apply F. now apply nth_In.
  - now rewrite nth_overflow.
Qed.

Lemma th_date_format_valid (d : datetime) :
  valid_datetime d = true ->
  th_date_format d =
    inl (str_int (day d) ++ " "
         ++ nth (Z.to_nat (month d - 1)) TH_MONTHS EmptyString ++ " พ.ศ."
         ++ str_int (year d))%string.
Proof.
  intros Hv. destruct (month_name d Hv) as [G _].
  unfold th_date_format. now rewrite G.
Qed.

Lemma th_date_format_same_fields (d1 d2 : datetime) :
  valid_datetime d1 = true ->
  valid_datetime d2 = true ->
  th_date_format d1 = th_date_format d2 ->
  d1 = d2.
Proof.
  intros H1 H2 E.
  destruct (month_name d1 H1) as [_ L1], (month_name d2 H2) as [_ L2].
  destruct (valid_datetime_fields _ H1) as (_ & Hm1 & _).
  destruct (valid_datetime_fields _ H2) as (_ & Hm2 & _).
  rewrite (th_date_format_valid d1 H1), (th_date_format_valid d2 H2) in E.
  pose proof (month_name_no_space (Z.to_nat (month d1 - 1))) as S1.
  pose proof (month_name_no_space (Z.to_nat (month d2 - 1))) as S2.
  pose proof TH_MONTHS_NoDup as ND.
  rewrite (NoDup_nth TH_MONTHS EmptyString) in ND.
  specialize (ND (Z.to_nat (month d1 - 1)) (Z.to_nat (month d2 - 1))).
  rewrite TH_MONTHS_length in ND. specialize (ND L1 L2).
  remember (nth (Z.to_nat (month d1 - 1)) TH_MONTHS EmptyString) as n1.
  remember (nth (Z.to_nat (month d2 - 1)) TH_MONTHS EmptyString) as n2.
  injection E as E.
  apply format_fields_inj in E; auto using str_int_no_space.
  destruct E as (Ed & En & Ey).
  apply str_int_inj in Ed. apply str_int_inj in Ey. apply ND in En.
  destruct d1 as [y1 m1 dd1], d2 as [y2 m2 dd2]. cbn in *.
  f_equal; lia.
Qed.

(** X1: on every [datetime] (whose month the constructor has checked),
    [th_date_format] raises no [IndexError]: it returns the day, the name
    of the month from the table, and the year after the era mark. *)
Theorem th_date_format_returns :
  forall d : datetime,
    valid_datetime d = true ->
    exists name : string,
      nth_error TH_MONTHS (Z.to_nat (month d - 1)) = Some name /\
      th_date_format d =
        inl (str_int (day d) ++ " " ++ name ++ " พ.ศ."
             ++ str_int (year d))%string.
Proof.
  intros d Hv. destruct (month_name d Hv) as [_ L].
  exists (nth (Z.to_nat (month d - 1)) TH_MONTHS EmptyString). split.
  - apply nth_error_nth'. now rewrite TH_MONTHS_length.
  - now apply th_date_format_valid.
Qed.

Lemma th_date_format_returns_example :
  exists name : string,
    nth_error TH_MONTHS (Z.to_nat (month END_DATE - 1)) = Some name /\
    th_date_format END_DATE =
      inl (str_int (day END_DATE) ++ " " ++ name ++ " พ.ศ."
           ++ str_int (year END_DATE))%string.
Proof. apply (th_date_format_returns END_DATE). reflexivity. Defined.

(** X2: the displayed date is unambiguous: two [datetime] values with the
    same [th_date_format] text are the same date. *)
Theorem th_date_format_inj :
  forall d1 d2 : datetime,
    valid_datetime d1 = true ->
    valid_datetime d2 = true ->
    th_date_format d1 = th_date_format d2 ->
    d1 = d2.
Proof. exact th_date_format_same_fields. Qed.

Lemma th_date_format_inj_example : START_DATE = START_DATE.
Proof.
  apply (th_date_format_inj START_DATE START_DATE); reflexivity.
Defined.

(** The check of the month matters for X2: a month field of 0 would be
    displayed as December, through the subscript -1 of the table. *)
Lemma th_date_format_month_zero :
  th_date_format (mk_datetime 2564 0 1) =
  th_date_format (mk_datetime 2564 12 1).
Proof. reflexivity. Qed.

(** X3: the text of a person is unambiguous: two persons with the same
    [__str__] have the same gender and the same birthdate. *)
Theorem Person__str__inj :
  forall p1 p2 : Person,
    valid_datetime (birthdate p1) = true ->
    valid_datetime (birthdate p2) = true ->
    Person__str__ p1 = Person__str__ p2 ->
    p1 = p2.
Proof.
  intros [g1 b1] [g2 b2] H1 H2 E. cbn in H1, H2.
  unfold Person__str__ in E. cbn [birthdate gender] in E.
  assert (Eb : th_date_format b1 = th_date_format b2 /\ g1 = g2).
  { pose proof (th_date_format_valid b1 H1) as F1.
    pose proof (th_date_format_valid b2 H2) as F2.
    destruct (th_date_format b1) as [s1|]; [clear F1 | discriminate F1].
    destruct (th_date_format b2) as [s2|]; [clear F2 | discriminate F2].
    injection E as E.
    destruct g1, g2; cbn [Gender__str__] in E.
    - pose proof (append_same_prefix "Male, birthdate: " s1 s2 E)
        as ->. auto.
    - cbn in E. discriminate E.
    - cbn in E. discriminate E.
    - pose proof (append_same_prefix "Female, birthdate: " s1 s2 E)
        as ->. auto. }
  destruct Eb as [Eb ->].
  now rewrite (th_date_format_same_fields b1 b2 H1 H2 Eb).
Qed.

Lemma Person__str__inj_example :
  mk_Person Male START_DATE = mk_Person Male START_DATE.
Proof.
  apply (Person__str__inj (mk_Person Male START_DATE)
           (mk_Person Male START_DATE)); reflexivity.
Defined.

(** ** The loop of [main] *)

Lemma eligibility_of_shape (p : Person) :
  valid_datetime (birthdate p) = true ->
  (exists ds de : datetime,
      eligibility_of p = (true, Some ds, Some de) /\
      valid_datetime ds = true /\ valid_datetime de = true) \/
  eligibility_of p = (false, None, None).
Proof.
  intros Hv.
  pose proof (constructed_dates_pass p Hv) as Hc.
  pose proof (rule_C_plus_months p Hv) as Hpm.
  unfold eligibility_of.
  destruct (branch_of p); [left .. | right; reflexivity].
  - exists START_DATE, END_DATE. auto.
  - exists (plus_years (birthdate p) 65), END_DATE. auto.
  - exists (plus_months (birthdate p) 6), END_DATE.
    rewrite <- (Hpm eq_refl). auto.
  - exists START_DATE, (plus_years (birthdate p) 2). auto.
Qed.

Lemma main_body_valid (i : Z) (p : Person) :
  valid_datetime (birthdate p) = true ->
  (exists (ds de : datetime) (ss se hdr : string),
      is_eligible p = Returns (true, Some ds, Some de) /\
      th_date_format ds = inl ss /\ th_date_format de = inl se /\
      Person__str__ p = inl hdr /\
      main_body i p =
        inl [ (str_int (i + 1) ++ ": " ++ hdr)%string;
              report "Yes" (Some ss) (Some se) ]) \/
  (exists hdr : string,
      is_eligible p = Returns (false, None, None) /\
      Person__str__ p = inl hdr /\
      main_body i p =
        inl [ (str_int (i + 1) ++ ": " ++ hdr)%string;
              report "No" None None ]).
Proof.
  intros Hv.
  pose proof (th_date_format_valid _ Hv) as Fb.
  assert (Sp : exists hdr, Person__str__ p = inl hdr).
  { unfold Person__str__. rewrite Fb. eauto. }
  destruct Sp as [hdr Sp].
  unfold main_body. rewrite (is_eligible_returns p Hv), Sp.
  destruct (eligibility_of_shape p Hv) as [(ds & de & -> & Vs & Ve) | ->].
  - left.
    pose proof (th_date_format_valid _ Vs) as Fs.
    pose proof (th_date_format_valid _ Ve) as Fe.
    destruct (th_date_format ds) as [ss|] eqn:Es; [clear Fs|discriminate Fs].
    destruct (th_date_format de) as [se|] eqn:Ee; [clear Fe|discriminate Fe].
    exists ds, de, ss, se, hdr.
    unfold th_date_format_if. rewrite Es, Ee. auto 6.
  - right. exists hdr. auto.
Qed.

(** X4: for a person with a valid birthdate the body of the loop raises
    nothing and prints two strings: the numbered text of the person, and a
    report that says "Yes" with the two formatted dates of the window
    returned by [is_eligible], or "No" with "None" for both dates. *)
Theorem main_body_report :
  forall (i : Z) (p : Person),
    valid_datetime (birthdate p) = true ->
    (exists (ds de : datetime) (ss se hdr : string),
        is_eligible p = Returns (true, Some ds, Some de) /\
        th_date_format ds = inl ss /\ th_date_format de = inl se /\
        Person__str__ p = inl hdr /\
        main_body i p =
          inl [ (str_int (i + 1) ++ ": " ++ hdr)%string;
                report "Yes" (Some ss) (Some se) ]) \/
    (exists hdr : string,
        is_eligible p = Returns (false, None, None) /\
        Person__str__ p = inl hdr /\
        main_body i p =
          inl [ (str_int (i + 1) ++ ": " ++ hdr)%string;
                report "No" None None ]).
Proof. exact main_body_valid. Qed.

(** X5: over any list of persons with valid birthdates the loop runs to its
    end without an exception and prints exactly two strings per person. *)
Theorem main_loop_completes :
  forall (persons : list Person) (i : Z) (out : list string),
    Forall (fun p => valid_datetime (birthdate p) = true) persons ->
    exists out' : list string,
      main_loop i persons out = (out', None) /\
      List.length out' = (List.length out + 2 * List.length persons)%nat /\
      firstn (List.length out) out' = out.
Proof.
  induction persons as [|p rest IH]; intros i out HF; cbn [main_loop].
  - exists out. repeat split; [cbn; lia | apply firstn_all].
  - inversion HF as [|? ? Hp Hrest]; subst.
    assert (B : exists a b, main_body i p = inl [a; b]).
    { destruct (main_body_valid i p Hp)
        as [(? & ? & ? & ? & ? & _ & _ & _ & _ & ->) | (? & _ & _ & ->)];
        eauto. }
    destruct B as (a & b & ->).
    destruct (IH (i + 1) (out ++ [a; b]) Hrest) as (out' & -> & L & P).
    exists out'. split; [reflexivity|]. split.
    + rewrite L, length_app. cbn. lia.
    + assert (F : firstn (List.length out) out' =
                  firstn (List.length out)
                         (firstn (List.length (out ++ [a; b])) out')).
      { rewrite firstn_firstn. f_equal. rewrite length_app. cbn. lia. }
      rewrite F, P, firstn_app, Nat.sub_diag, firstn_all. cbn.
      apply app_nil_r.
Qed.

Lemma main_loop_completes_example :
  exists out' : list string,
    main_loop 0 example_persons [] = (out', None) /\
    List.length out' = (List.length (@nil string)
                        + 2 * List.length example_persons)%nat /\
    firstn (List.length (@nil string)) out' = [].
Proof.
  apply (main_loop_completes example_persons 0 []).
  repeat constructor.
Defined.

Lemma main_body_report_example :
  (exists (ds de : datetime) (ss se hdr : string),
      is_eligible (mk_Person Female (mk_datetime 2564 1 5))
        = Returns (true, Some ds, Some de) /\
      th_date_format ds = inl ss /\ th_date_format de = inl se /\
      Person__str__ (mk_Person Female (mk_datetime 2564 1 5)) = inl hdr /\
      main_body 3 (mk_Person Female (mk_datetime 2564 1 5)) =
        inl [ (str_int (3 + 1) ++ ": " ++ hdr)%string;
              report "Yes" (Some ss) (Some se) ]) \/
  (exists hdr : string,
      is_eligible (mk_Person Female (mk_datetime 2564 1 5))
        = Returns (false, None, None) /\
      Person__str__ (mk_Person Female (mk_datetime 2564 1 5)) = inl hdr /\
      main_body 3 (mk_Person Female (mk_datetime 2564 1 5)) =
        inl [ (str_int (3 + 1) ++ ": " ++ hdr)%string;
              report "No" None None ]).
Proof.
  apply (main_body_report 3 (mk_Person Female (mk_datetime 2564 1 5))).
  reflexivity.
Defined.

(** * More on [calculate_age] *)

(** X6: the years of the age never decrease as the reference date
    advances. *)
Theorem calculate_age_years_monotone :
  forall (p : Person) (ref1 ref2 : datetime),
    datetime_le ref1 ref2 = true ->
    fst (calculate_age p ref1) <= fst (calculate_age p ref2).
Proof.
  intros p ref1 ref2 H. apply datetime_le_iff in H.
  rewrite !calculate_age_fst.
  destruct (age_years_spec_cases (birthdate p) ref1) as [[C1 ->] | [C1 ->]],
    (age_years_spec_cases (birthdate p) ref2) as [[C2 ->] | [C2 ->]]; lia.
Qed.

Lemma calculate_age_years_monotone_example :
  fst (calculate_age (mk_Person Male (mk_datetime 2562 7 1)) START_DATE) <=
  fst (calculate_age (mk_Person Male (mk_datetime 2562 7 1)) END_DATE).
Proof.
  apply (calculate_age_years_monotone
           (mk_Person Male (mk_datetime 2562 7 1)) START_DATE END_DATE).
  reflexivity.
Defined.

(** X7: taken together, the years and the months count the calendar months
    from the month of birth to the month of the reference date, except in
    the month of the birthday before the day of the birthday, where the
    months are 0 although the years were already decremented. *)
Theorem calculate_age_months_total :
  forall (p : Person) (ref : datetime),
    1 <= month (birthdate p) <= 12 ->
    1 <= month ref <= 12 ->
    (12 * fst (calculate_age p ref) + snd (calculate_age p ref) =
     12 * (year ref - year (birthdate p)) + (month ref - month (birthdate p))
     <->
     ~ (month ref = month (birthdate p) /\ day ref < day (birthdate p))).
Proof.
  intros p ref Hb Hr.
  rewrite calculate_age_fst, calculate_age_snd. unfold age_months_spec.
  destruct (age_years_spec_cases (birthdate p) ref) as [[C ->] | [C ->]];
    zlia.
Qed.

Lemma calculate_age_months_total_example :
  12 * fst (calculate_age (mk_Person Male (mk_datetime 2562 7 1)) END_DATE)
  + snd (calculate_age (mk_Person Male (mk_datetime 2562 7 1)) END_DATE) =
  12 * (year END_DATE - 2562) + (month END_DATE - 7)
  <->
  ~ (month END_DATE = 7 /\ day END_DATE < 1).
Proof.
  apply (calculate_age_months_total
           (mk_Person Male (mk_datetime 2562 7 1)) END_DATE); cbn; lia.
Defined.

(** X8: the age pair can go backwards: for a birthday after the first day
    of a month other than January, the age on the first day of the birthday
    month is below the age on any day of the month before. *)
Theorem calculate_age_not_monotone :
  forall (p : Person) (y d : Z),
    2 <= month (birthdate p) <= 12 ->
    2 <= day (birthdate p) ->
    datetime_lt (mk_datetime y (month (birthdate p) - 1) d)
                (mk_datetime y (month (birthdate p)) 1) = true /\
    calculate_age p (mk_datetime y (month (birthdate p) - 1) d)
      = (y - year (birthdate p) - 1, 11) /\
    calculate_age p (mk_datetime y (month (birthdate p)) 1)
      = (y - year (birthdate p) - 1, 0) /\
    tuple_lt (calculate_age p (mk_datetime y (month (birthdate p)) 1))
             (calculate_age p (mk_datetime y (month (birthdate p) - 1) d))
      = true.
Proof.
  intros p y d Hm Hd.
  assert (E1 : calculate_age p (mk_datetime y (month (birthdate p) - 1) d)
               = (y - year (birthdate p) - 1, 11)).
  { rewrite (surjective_pairing (calculate_age p _)).
    rewrite calculate_age_fst, calculate_age_snd. unfold age_months_spec.
    destruct (age_years_spec_cases (birthdate p)
                (mk_datetime y (month (birthdate p) - 1) d))
      as [[C ->] | [C ->]]; cbn [year month day] in *; f_equal; zlia. }
  assert (E2 : calculate_age p (mk_datetime y (month (birthdate p)) 1)
               = (y - year (birthdate p) - 1, 0)).
  { rewrite (surjective_pairing (calculate_age p _)).
    rewrite calculate_age_fst, calculate_age_snd. unfold age_months_spec.
    destruct (age_years_spec_cases (birthdate p)
                (mk_datetime y (month (birthdate p)) 1))
      as [[C ->] | [C ->]]; cbn [year month day] in *; f_equal; zlia. }
  rewrite E1, E2. repeat split.
  - unfold datetime_lt. cbn [year month day].
    rewrite Z.eqb_refl. cbn.
    replace (month (birthdate p) - 1 <? month (birthdate p)) with true
      by (symmetry; apply Z.ltb_lt; lia).
    now rewrite orb_true_r.
  - apply tuple_lt_iff. cbn. lia.
Qed.

Lemma calculate_age_not_monotone_example :
  datetime_lt (mk_datetime 2564 5 31) (mk_datetime 2564 6 1) = true /\
  calculate_age (mk_Person Male (mk_datetime 2563 6 15))
                (mk_datetime 2564 5 31) = (0, 11) /\
  calculate_age (mk_Person Male (mk_datetime 2563 6 15))
                (mk_datetime 2564 6 1) = (0, 0) /\
  tuple_lt (calculate_age (mk_Person Male (mk_datetime 2563 6 15))
                          (mk_datetime 2564 6 1))
           (calculate_age (mk_Person Male (mk_datetime 2563 6 15))
                          (mk_datetime 2564 5 31)) = true.
Proof.
  apply (calculate_age_not_monotone
           (mk_Person Male (mk_datetime 2563 6 15)) 2564 31); cbn; lia.
Defined.

(** * More on [is_eligible] *)

Lemma february_2564 (d : datetime) :
  valid_datetime d = true ->
  year d = 2564 -> month d = 2 -> day d <= 29.
Proof.
  intros Hv Ey Em. destruct (valid_datetime_fields _ Hv) as (_ & _ & Hd).
  rewrite Ey, Em in Hd. cbn in Hd. lia.
Qed.

(** The birthdates that reach the last return. *)
Lemma branch_of_Ineligible_iff (p : Person) :
  valid_datetime (birthdate p) = true ->
  branch_of p = Ineligible <->
  ~ (datetime_le (birthdate p) (mk_datetime 2499 8 31) = true \/
     (datetime_le (mk_datetime 2562 6 1) (birthdate p) = true /\
      datetime_le (birthdate p) (mk_datetime 2564 2 29) = true) \/
     (year (birthdate p) = 2561 /\ month (birthdate p) = 6 /\
      2 <= day (birthdate p))).
Proof.
  intros Hv.
  destruct (valid_datetime_fields _ Hv) as (Hy & Hm & Hd).
  pose proof (days_in_month_bounds (year (birthdate p)) (month (birthdate p)))
    as Hb.
  assert (Hd31 : 1 <= day (birthdate p) <= 31) by lia.
  pose proof (february_2564 _ Hv) as Feb.
  pose proof (branch_of_birthdate p Hm Hd31) as Hc.
  destruct (ages_in_period p Hm)
    as (ys & ms & ye & me & Hs & He & Hys & Hms & Hye & Hme).
  rewrite !datetime_le_iff. cbn [year month day].
  destruct (branch_of p) eqn:B.
  - pose proof (branch_of_RuleA p B) as TA. reflect_tests.
    split; [discriminate|]. intros N. exfalso. apply N. clear N. lia.
  - split; [discriminate|]. intros N. exfalso. apply N. clear N. lia.
  - split; [discriminate|]. intros N. exfalso. apply N. clear N. lia.
  - split; [discriminate|]. intros N. exfalso. apply N. clear N. lia.
  - destruct (branch_of_Ineligible p B) as (TA & TB & TC & TD).
    reflect_tests. split; [intros _|reflexivity]. lia.
Qed.

(** X9: who is eligible. On a valid birthdate the verdict is "ineligible",
    with no dates, exactly when the birthdate is after 2499-08-31 (65 at
    the end of the period) and outside 2562-06-01 .. 2564-02-29 (2 at the
    start of the period, 6 months at its end), the 2nd to the 30th of June
    2561 apart; every other birthdate gets a verdict "eligible" with both
    dates. *)
Theorem is_eligible_verdict :
  forall p : Person,
    valid_datetime (birthdate p) = true ->
    (is_eligible p = Returns (false, None, None) <->
     ~ (datetime_le (birthdate p) (mk_datetime 2499 8 31) = true \/
        (datetime_le (mk_datetime 2562 6 1) (birthdate p) = true /\
         datetime_le (birthdate p) (mk_datetime 2564 2 29) = true) \/
        (year (birthdate p) = 2561 /\ month (birthdate p) = 6 /\
         2 <= day (birthdate p)))) /\
    (is_eligible p = Returns (false, None, None) \/
     exists s e : datetime, is_eligible p = Returns (true, Some s, Some e)).
Proof.
  intros p Hv.
  rewrite <- (branch_of_Ineligible_iff p Hv).
  rewrite (is_eligible_returns p Hv). unfold eligibility_of.
  destruct (branch_of p); split;
    try (split; [discriminate | discriminate]);
    try (right; eauto; fail).
  - split; reflexivity.
  - now left.
Qed.

Lemma is_eligible_verdict_example :
  (is_eligible (mk_Person Male (mk_datetime 2500 10 8))
   = Returns (false, None, None) <->
   ~ (datetime_le (mk_datetime 2500 10 8) (mk_datetime 2499 8 31) = true \/
      (datetime_le (mk_datetime 2562 6 1) (mk_datetime 2500 10 8) = true /\
       datetime_le (mk_datetime 2500 10 8) (mk_datetime 2564 2 29) = true) \/
      (2500 = 2561 /\ 10 = 6 /\ 2 <= 8))) /\
  (is_eligible (mk_Person Male (mk_datetime 2500 10 8))
   = Returns (false, None, None) \/
   exists s e : datetime,
     is_eligible (mk_Person Male (mk_datetime 2500 10 8))
     = Returns (true, Some s, Some e)).
Proof.
  apply (is_eligible_verdict (mk_Person Male (mk_datetime 2500 10 8))).
  reflexivity.
Defined.

(** X10: seniors. A person whose 65th birthday is not after the end of the
    period (born on or before 2499-08-31) is eligible until the end of the
    period, from the start of the period or from the 65th birthday,
    whichever is later. *)
Theorem is_eligible_senior_window :
  forall p : Person,
    valid_datetime (birthdate p) = true ->
    datetime_le (birthdate p) (mk_datetime 2499 8 31) = true ->
    is_eligible p =
      Returns (true,
               Some (if datetime_le (plus_years (birthdate p) 65) START_DATE
                     then START_DATE
                     else plus_years (birthdate p) 65),
               Some END_DATE).
Proof.
  intros p Hv Hs65.
  destruct (valid_datetime_fields _ Hv) as (Hy & Hm & Hd).
  pose proof (days_in_month_bounds (year (birthdate p)) (month (birthdate p)))
    as Hb.
  assert (Hd31 : 1 <= day (birthdate p) <= 31) by lia.
  pose proof (branch_of_birthdate p Hm Hd31) as Hc.
  destruct (ages_in_period p Hm)
    as (ys & ms & ye & me & Hs & He & Hys & Hms & Hye & Hme).
  apply datetime_le_iff in Hs65. cbn [year month day] in Hs65.
  rewrite (is_eligible_returns p Hv). unfold eligibility_of.
  destruct (datetime_le (plus_years (birthdate p) 65) START_DATE) eqn:Q;
    [apply datetime_le_iff in Q
    |apply not_true_iff_false in Q; rewrite datetime_le_iff in Q];
    unfold plus_years in Q; cbn [year month day START_DATE] in Q;
    destruct (branch_of p) eqn:B; try reflexivity; exfalso;
    try (pose proof (branch_of_RuleA p B) as TA);
    try (destruct (branch_of_Ineligible p B) as (TA & TB & TC & TD));
    try (unfold branch_of in B; destruct (rule_A_test p) eqn:TA;
         [discriminate B|]);
    reflect_tests; lia.
Qed.

Lemma is_eligible_senior_window_example :
  is_eligible (mk_Person Female (mk_datetime 2499 7 15)) =
    Returns (true, Some (mk_datetime 2564 7 15), Some END_DATE).
Proof.
  apply (is_eligible_senior_window (mk_Person Female (mk_datetime 2499 7 15)));
    reflexivity.
Defined.

(** X11: where the window is sound. On a valid birthdate [is_eligible]
    returns a triple that keeps the invariant (no dates when ineligible;
    otherwise a window that starts no later than it ends, inside the
    service period) exactly when the birthdate is not one of the 2nd to the
    30th of June of 2561 or of 2563. *)
Theorem is_eligible_invariant_extent :
  forall p : Person,
    valid_datetime (birthdate p) = true ->
    exists r : bool * option datetime * option datetime,
      is_eligible p = Returns r /\
      (result_invariant r = true <->
       ~ (month (birthdate p) = 6 /\ 2 <= day (birthdate p) /\
          (year (birthdate p) = 2561 \/ year (birthdate p) = 2563))).
Proof.
  intros p Hv. exists (eligibility_of p).
  split; [now apply is_eligible_returns|].
  rewrite <- (result_invariant_fails_iff p Hv).
  destruct (result_invariant (eligibility_of p)); split; congruence.
Qed.

Lemma is_eligible_invariant_extent_example :
  exists r : bool * option datetime * option datetime,
    is_eligible (mk_Person Female (mk_datetime 2562 7 1)) = Returns r /\
    (result_invariant r = true <->
     ~ (7 = 6 /\ 2 <= 1 /\ (2562 = 2561 \/ 2562 = 2563))).
Proof.
  apply (is_eligible_invariant_extent
           (mk_Person Female (mk_datetime 2562 7 1))).
  reflexivity.
Defined.

(** X12: children. A person born from 2562-06-01 to 2564-02-29 (2 years old
    no earlier than the start of the period, 6 months old no later than its
    end), the 2nd to the 30th of June 2563 apart, is eligible; the window
    starts with the period, or on the half-year birthday for a birth in
    2564, and ends with the period, or on the second birthday for a birth
    up to 2562-07-31. *)
Theorem is_eligible_child_window :
  forall p : Person,
    valid_datetime (birthdate p) = true ->
    datetime_le (mk_datetime 2562 6 1) (birthdate p) = true ->
    datetime_le (birthdate p) (mk_datetime 2564 2 29) = true ->
    ~ (year (birthdate p) = 2563 /\ month (birthdate p) = 6 /\
       2 <= day (birthdate p)) ->
    is_eligible p =
      Returns (true,
               Some (if datetime_le (birthdate p) (mk_datetime 2563 12 31)
                     then START_DATE
                     else plus_months (birthdate p) 6),
               Some (if datetime_le (birthdate p) (mk_datetime 2562 7 31)
                     then plus_years (birthdate p) 2
                     else END_DATE)).
Proof.
  intros p Hv Hlo Hhi Hjune.
  destruct (valid_datetime_fields _ Hv) as (Hy & Hm & Hd).
  pose proof (days_in_month_bounds (year (birthdate p)) (month (birthdate p)))
    as Hb.
  assert (Hd31 : 1 <= day (birthdate p) <= 31) by lia.
  pose proof (branch_of_birthdate p Hm Hd31) as Hc.
  destruct (ages_in_period p Hm)
    as (ys & ms & ye & me & Hs & He & Hys & Hms & Hye & Hme).
  apply datetime_le_iff in Hlo, Hhi. cbn [year month day] in Hlo, Hhi.
  rewrite (is_eligible_returns p Hv). unfold eligibility_of.
  destruct (datetime_le (birthdate p) (mk_datetime 2563 12 31)) eqn:Q1;
    [apply datetime_le_iff in Q1
    |apply not_true_iff_false in Q1; rewrite datetime_le_iff in Q1];
    cbn [year month day] in Q1;
    (destruct (datetime_le (birthdate p) (mk_datetime 2562 7 31)) eqn:Q2;
     [apply datetime_le_iff in Q2
     |apply not_true_iff_false in Q2; rewrite datetime_le_iff in Q2]);
    cbn [year month day] in Q2;
    destruct (branch_of p) eqn:B; try reflexivity; exfalso;
    try (pose proof (branch_of_RuleA p B) as TA);
    try (destruct (branch_of_Ineligible p B) as (TA & TB & TC & TD));
    reflect_tests; lia.
Qed.

Lemma is_eligible_child_window_example :
  is_eligible (mk_Person Female (mk_datetime 2562 7 1)) =
    Returns (true, Some START_DATE, Some (mk_datetime 2564 7 1)).
Proof.
  apply (is_eligible_child_window (mk_Person Female (mk_datetime 2562 7 1)));
    try reflexivity.
  cbn. lia.
Defined.
